(** * stdr_robot RFID reader: angular interval test and detection cycle

    Shallow embedding of [stdr_robot/src/sensors/rfid_reader.cpp].

    Numbers.  The C++ code computes with [float] and [double].  In the main
    model every such value is a real number and every operation is exact:
    rounding, infinities and NaN are left out, [sqrt] and [atan2] are the
    real functions, and the conversion of a [double] to [int] is truncation
    toward zero without the overflow of a 32-bit [int].  The statements
    about all angles and about π are made and proved there.

    The module [IEEE] holds a second, bit-level model of [angCheck] over
    binary32 and binary64 with round-to-nearest-even.  It is evaluated at
    the concrete angles that the development relies on, to show that
    rounding does not change the verdict at any of them. *)

From Stdlib Require Import Reals Lra Lia ZArith List String Bool.
From Stdlib Require Import Floats.SpecFloat.
Import ListNotations.

Open Scope R_scope.

(** ** Numeric primitives *)

(** [(int) x] for a floating value [x]: the fractional part is dropped. *)
Definition trunc (x : R) : Z :=
  if Rle_dec 0 x then Int_part x else (- Int_part (- x))%Z.

(** Modelled from the spec: the macro [PI] is defined in a header that is
    not among the sources; the spec takes a full turn to be 2π, so [PI] is
    the real number π. *)
Definition PI : R := Rtrigo1.PI.

(** The comparisons [x > y] and [x < y] of the source, as booleans. *)
Definition Rgtb (x y : R) : bool := if Rgt_dec x y then true else false.
Definition Rltb (x y : R) : bool := if Rlt_dec x y then true else false.

Infix ">?" := Rgtb (at level 70, no associativity) : R_scope.
Infix "<?" := Rltb (at level 70, no associativity) : R_scope.

(** ** angCheck (rfid_reader.cpp, lines 33-64) *)

Definition angCheck (target_ min_ max_ : R) : bool :=
  let c := trunc ((target_ + 2 * PI) / (2 * PI)) in
  let target := target_ + IZR (1 - c) * PI * 2 in
  let c := trunc ((min_ + 2 * PI) / (2 * PI)) in
  let min := min_ + IZR (1 - c) * PI * 2 in
  let c := trunc ((max_ + 2 * PI) / (2 * PI)) in
  let max := max_ + IZR (1 - c) * PI * 2 in
  if min_ * max_ >? 0 then
    (* same sign *)
    if (target >? min) && (target <? max) then true else false
  else
    let max := max + 2 * PI in
    if (target >? min) && (target <? max) then true
    else
      let target := target + 2 * PI in
      if (target >? min) && (target <? max) then true else false.

(** The reduction that lines 36-41 apply, in turn, to [target_], [min_]
    and [max_]. *)
Definition normalize (a : R) : R :=
  let c := trunc ((a + 2 * PI) / (2 * PI)) in
  a + IZR (1 - c) * PI * 2.

(** ** Messages and collaborators

    The message types of [stdr_msgs], [geometry_msgs] and [nav_msgs], the
    [tf] transform and the base class [Sensor] are declared outside the
    sources at hand.  Each record below has the fields that
    rfid_reader.cpp reads or writes.  Where two C++ types share a field
    name, one of the two is prefixed here: [header.frame_id] is
    [header_frame_id], the [frame_id] and the [rfid_tags] of the measurement
    are [msg_frame_id] and [measured_tags], and the [pose] of the
    description is [sensor_pose]. *)

(** A [ros::Time], as a count of nanoseconds. *)
Definition Time : Type := Z.

Record Pose2D : Type := { x : R; y : R; theta : R }.

(** Modelled from the spec: the declaration of [stdr_msgs::RfidTag] is
    missing; a Tag is "an immutable point entity with a 2D position and an
    opaque payload (identifier/content carried through untouched)". *)
Record RfidTag : Type := { tag_id : string; pose : Pose2D }.

Record RfidTagVector : Type := { rfid_tags : list RfidTag }.

Record RfidSensorMsg : Type := {
  maxRange : R;
  angleSpan : R;
  frequency : R;
  frame_id : string;
  sensor_pose : Pose2D
}.

Record Header : Type := { stamp : Time; header_frame_id : string }.

Record RfidSensorMeasurementMsg : Type := {
  header : Header;
  msg_frame_id : string;
  measured_tags : list RfidTag
}.

Record MapMetaData : Type := { width : N; height : N }.
Record OccupancyGrid : Type := { info : MapMetaData }.

(** A [tf::StampedTransform], by what the reader takes from it: the two
    coordinates of [getOrigin()] and the angle [tf::getYaw(getRotation())]. *)
Record Transform : Type := { origin_x : R; origin_y : R; yaw : R }.

(** A [tf::TransformException], by its [what()]. *)
Record TransformException : Type := { what : string }.

(** The members of the class. *)
Record RfidReader : Type := {
  _map : OccupancyGrid;
  _namespace : string;
  _description : RfidSensorMsg;
  _gotTransform : bool;
  _sensorTransform : Transform;
  rfid_tags_ : RfidTagVector
}.

(** What a callback does to the outside: a message handed to [_publisher],
    or a line given to [ROS_DEBUG]. *)
Inductive Effect : Type :=
| Publish (m : RfidSensorMeasurementMsg)
| RosDebug (s : string).

(** ** libm *)

(** [atan2(y, x)] as the C standard describes it, signed zeros apart. *)
Definition atan2 (y x : R) : R :=
  if 0 <? x then atan (y / x)
  else if x <? 0 then
    if y <? 0 then atan (y / x) - PI else atan (y / x) + PI
  else
    if 0 <? y then PI / 2
    else if y <? 0 then - (PI / 2)
    else 0.

(** ** The callbacks *)

Open Scope string_scope.

Definition newline : string := String (Ascii.ascii_of_nat 10) EmptyString.

(** A default-constructed measurement message. *)
Definition empty_measurement : RfidSensorMeasurementMsg :=
  {| header := {| stamp := 0%Z; header_frame_id := "" |};
     msg_frame_id := "";
     measured_tags := [] |}.

(** [measuredTagsMsg.rfid_tags.push_back(tag)] *)
Definition push_back (m : RfidSensorMeasurementMsg) (tag : RfidTag)
  : RfidSensorMeasurementMsg :=
  {| header := header m;
     msg_frame_id := msg_frame_id m;
     measured_tags := (measured_tags m ++ [tag])%list |}.

(** The body of the loop of lines 134-158, for the tag
    [rfid_tags_.rfid_tags[i]]; a [continue] leaves the message as it is. *)
Definition loopBody (r : RfidReader) (max_range min_angle max_angle : R)
    (measuredTagsMsg : RfidSensorMeasurementMsg) (tag : RfidTag)
  : RfidSensorMeasurementMsg :=
  let sensor_x := origin_x (_sensorTransform r) in
  let sensor_y := origin_y (_sensorTransform r) in
  let dist := sqrt ((sensor_x - x (pose tag)) ^ 2 + (sensor_y - y (pose tag)) ^ 2) in
  if dist >? max_range then measuredTagsMsg
  else
    let ang := atan2 (y (pose tag) - sensor_y) (x (pose tag) - sensor_x) in
    if negb (angCheck ang min_angle max_angle) then measuredTagsMsg
    else push_back measuredTagsMsg tag.

(** [RfidReader::updateSensorCallback] (lines 113-163).  [now] is what
    [ros::Time::now()] answers. *)
Definition updateSensorCallback (now : Time) (r : RfidReader)
  : RfidReader * list Effect :=
  if negb (_gotTransform r) then (r, [])
  else
    let measuredTagsMsg :=
      {| header := header empty_measurement;
         msg_frame_id := frame_id (_description r);
         measured_tags := measured_tags empty_measurement |} in
    if (height (info (_map r)) =? 0)%N || (width (info (_map r)) =? 0)%N then
      (r, [RosDebug ("In rfid reader : Outside limits" ++ newline)])
    else
      let max_range := maxRange (_description r) in
      let sensor_th := yaw (_sensorTransform r) in
      let min_angle := (sensor_th - angleSpan (_description r) / 2)%R in
      let max_angle := (sensor_th + angleSpan (_description r) / 2)%R in
      let measuredTagsMsg :=
        fold_left (loopBody r max_range min_angle max_angle)
          (rfid_tags (rfid_tags_ r)) measuredTagsMsg in
      let measuredTagsMsg :=
        {| header :=
             {| stamp := now;
                header_frame_id :=
                  _namespace r ++ "_" ++ frame_id (_description r) |};
           msg_frame_id := msg_frame_id measuredTagsMsg;
           measured_tags := measured_tags measuredTagsMsg |} in
      (r, [Publish measuredTagsMsg]).

(** [RfidReader::updateTransform] (lines 187-209).  [lookup] is what
    [waitForTransform] and [lookupTransform] come to: the transform, or the
    exception one of them throws. *)
Definition updateTransform (lookup : TransformException + Transform)
    (r : RfidReader) : RfidReader * list Effect :=
  match lookup with
  | inr t =>
      ({| _map := _map r;
          _namespace := _namespace r;
          _description := _description r;
          _gotTransform := true;
          _sensorTransform := t;
          rfid_tags_ := rfid_tags_ r |}, [])
  | inl ex => (r, [RosDebug (what ex)])
  end.

(** [RfidReader::receiveRfids] (lines 214-217) *)
Definition receiveRfids (msg : RfidTagVector) (r : RfidReader)
  : RfidReader * list Effect :=
  ({| _map := _map r;
      _namespace := _namespace r;
      _description := _description r;
      _gotTransform := _gotTransform r;
      _sensorTransform := _sensorTransform r;
      rfid_tags_ := msg |}, []).

(** Modelled from the spec: the constructor of the base class [Sensor] is
    missing; the Readiness flag is "false until the first successful pose
    refresh".  The transform and the tag set start default-constructed. *)
Definition RfidReader_new (map : OccupancyGrid) (msg : RfidSensorMsg)
    (name : string) : RfidReader :=
  {| _map := map;
     _namespace := name;
     _description := msg;
     _gotTransform := false;
     _sensorTransform := {| origin_x := 0; origin_y := 0; yaw := 0 |};
     rfid_tags_ := {| rfid_tags := [] |} |}.

Close Scope string_scope.

(** ** Scheduling

    The constructor (lines 82-97) registers [updateSensorCallback] and
    [updateTransform] on two timers and [receiveRfids] on a topic.  The
    callbacks run one at a time, each to its end. *)
Inductive Event : Type :=
| SensorTimer (now : Time)
| TfTimer (lookup : TransformException + Transform)
| RfidList (msg : RfidTagVector).

Definition dispatch (e : Event) (r : RfidReader) : RfidReader * list Effect :=
  match e with
  | SensorTimer now => updateSensorCallback now r
  | TfTimer lookup => updateTransform lookup r
  | RfidList msg => receiveRfids msg r
  end.

Fixpoint run (es : list Event) (r : RfidReader) : RfidReader * list Effect :=
  match es with
  | [] => (r, [])
  | e :: es' =>
      let (r1, out1) := dispatch e r in
      let (r2, out2) := run es' r1 in
      (r2, (out1 ++ out2)%list)
  end.

(** The reports among the effects. *)
Fixpoint reports (out : list Effect) : list RfidSensorMeasurementMsg :=
  match out with
  | [] => []
  | Publish m :: out' => m :: reports out'
  | RosDebug _ :: out' => reports out'
  end.

(** The events that hand the reader a fresh pose. *)
Definition lookup_succeeds (e : Event) : bool :=
  match e with
  | TfTimer (inr _) => true
  | _ => false
  end.

(** Whether the tag passes the two gates of the loop, for the pose and the
    configuration the reader holds. *)
Definition detected (r : RfidReader) (tag : RfidTag) : bool :=
  let sensor_x := origin_x (_sensorTransform r) in
  let sensor_y := origin_y (_sensorTransform r) in
  let sensor_th := yaw (_sensorTransform r) in
  negb (sqrt ((sensor_x - x (pose tag)) ^ 2 + (sensor_y - y (pose tag)) ^ 2)
          >? maxRange (_description r))
  && angCheck (atan2 (y (pose tag) - sensor_y) (x (pose tag) - sensor_x))
       (sensor_th - angleSpan (_description r) / 2)
       (sensor_th + angleSpan (_description r) / 2).

(** The report of a cycle that passes the two guards. *)
Definition report (now : Time) (r : RfidReader) : RfidSensorMeasurementMsg :=
  {| header :=
       {| stamp := now;
          header_frame_id :=
            (_namespace r ++ "_" ++ frame_id (_description r))%string |};
     msg_frame_id := frame_id (_description r);
     measured_tags := filter (detected r) (rfid_tags (rfid_tags_ r)) |}.

(** ** A concrete reader

    The sensor of the end-to-end scenario: range 10, span 1.0 rad, on a
    map of 100 by 100 cells, with three tags in the registry and the pose
    of the origin. *)

Definition scenario_sensor : RfidSensorMsg :=
  {| maxRange := 10;
     angleSpan := 1;
     frequency := 10;
     frame_id := "rfid_reader_0"%string;
     sensor_pose := {| x := 0; y := 0; theta := 0 |} |}.

Definition scenario_map : OccupancyGrid :=
  {| info := {| width := 100; height := 100 |} |}.

Definition tagA : RfidTag :=
  {| tag_id := "A"%string; pose := {| x := 5; y := 0; theta := 0 |} |}.
Definition tagB : RfidTag :=
  {| tag_id := "B"%string; pose := {| x := 5; y := 5; theta := 0 |} |}.
Definition tagC : RfidTag :=
  {| tag_id := "C"%string; pose := {| x := 20; y := 0; theta := 0 |} |}.


Definition origin_pose : Transform :=
  {| origin_x := 0; origin_y := 0; yaw := 0 |}.

(** The reader as constructed, before any callback has run. *)
Definition fresh_reader : RfidReader :=
  RfidReader_new scenario_map scenario_sensor "robot0"%string.

(** The reader after a first pose and the registry of the scenario. *)
Definition scenario_reader : RfidReader :=
  fst (run [TfTimer (inr origin_pose);
            RfidList {| rfid_tags := [tagA; tagB; tagC] |}] fresh_reader).


(** ** The accessors *)

(** [RfidReader::getSensorPose] (lines 169-172) *)
Definition getSensorPose (r : RfidReader) : Pose2D :=
  sensor_pose (_description r).

(** [RfidReader::getFrameId] (lines 178-181) *)
Definition getFrameId (r : RfidReader) : string :=
  (_namespace r ++ "_" ++ frame_id (_description r))%string.

(** ** Vocabulary of the statements about runs and cones *)




(** The two edges of the cone that the cycle hands to [angCheck]. *)
Definition min_angle (r : RfidReader) : R :=
  yaw (_sensorTransform r) - angleSpan (_description r) / 2.

Definition max_angle (r : RfidReader) : R :=
  yaw (_sensorTransform r) + angleSpan (_description r) / 2.

(** The guard of lines 122-126, negated. *)
Definition map_ok (r : RfidReader) : bool :=
  negb ((height (info (_map r)) =? 0)%N || (width (info (_map r)) =? 0)%N).

(** The pose of the last lookup of [es] that succeeded, [cur] if none did. *)
Fixpoint last_pose (es : list Event) (cur : Transform) : Transform :=
  match es with
  | [] => cur
  | TfTimer (inr t) :: es' => last_pose es' t
  | _ :: es' => last_pose es' cur
  end.

(** The last registry that [es] delivers, [cur] if it delivers none. *)
Fixpoint last_tags (es : list Event) (cur : RfidTagVector) : RfidTagVector :=
  match es with
  | [] => cur
  | RfidList msg :: es' => last_tags es' msg
  | _ :: es' => last_tags es' cur
  end.

(** The times of the sensor timer events of [es] that find the flag set,
    when it is [ready] at the start. *)
Fixpoint ready_times (ready : bool) (es : list Event) : list Time :=
  match es with
  | [] => []
  | SensorTimer now :: es' =>
      if ready then now :: ready_times ready es' else ready_times ready es'
  | TfTimer (inr _) :: es' => ready_times true es'
  | _ :: es' => ready_times ready es'
  end.

(** ** Bit-level model of angCheck

    [float] is binary32 (24 bits of precision), [double] is binary64 (53
    bits).  An operation between a [float] and a [double] is done in
    [double]; storing into a [float] rounds. *)

Module IEEE.

Definition float : Type := spec_float.
Definition double : Type := spec_float.

Definition dadd : double -> double -> double := SFadd 53 1024.
Definition dmul : double -> double -> double := SFmul 53 1024.
Definition ddiv : double -> double -> double := SFdiv 53 1024.
Definition fmul : float -> float -> float := SFmul 24 128.

(** The comparison [x < y]; [x > y] is [y < x]. *)
Definition lt : spec_float -> spec_float -> bool := SFltb.

Definition double_of_int (z : Z) : double :=
  binary_normalize 53 1024 z 0 false.

Definition float_of_int (z : Z) : float :=
  binary_normalize 24 128 z 0 false.

(** Every [float] is a [double]; only the mantissa is realigned. *)
Definition double_of_float (f : float) : double :=
  match f with
  | S754_finite s m e => binary_normalize 53 1024 (cond_Zopp s (Zpos m)) e s
  | _ => f
  end.

Definition float_of_double (d : double) : float :=
  match d with
  | S754_finite s m e => binary_normalize 24 128 (cond_Zopp s (Zpos m)) e s
  | _ => d
  end.

(** [(int) d]: the magnitude is cut, the sign put back.  The source has no
    defined value on an infinity or a NaN. *)
Definition int_of_double (d : double) : Z :=
  match d with
  | S754_finite s m e =>
      cond_Zopp s
        (if (0 <=? e)%Z then Zpos m * 2 ^ e else Zpos m / 2 ^ (- e))%Z
  | _ => 0%Z
  end.

(** The [double] nearest to the decimal [m / 10 ^ d]; both [m] and
    [10 ^ d] have to be below [2 ^ 53]. *)
Definition decimal (m d : Z) : double :=
  ddiv (double_of_int m) (double_of_int (10 ^ d)).

(** A decimal literal handed to a [float] parameter. *)
Definition literal (m d : Z) : float := float_of_double (decimal m d).

(** Modelled from the spec: the macro [PI], missing from the sources, as
    the [double] nearest to π, which the literal 3.141592653589793 denotes. *)
Definition PI : double := decimal 3141592653589793 15.

Definition angCheck (target_ min_ max_ : float) : bool :=
  let two_PI := dmul (double_of_int 2) PI in
  let c := int_of_double (ddiv (dadd (double_of_float target_) two_PI) two_PI) in
  let target :=
    float_of_double
      (dadd (double_of_float target_)
         (dmul (dmul (double_of_int (1 - c)) PI) (double_of_int 2))) in
  let c := int_of_double (ddiv (dadd (double_of_float min_) two_PI) two_PI) in
  let min :=
    float_of_double
      (dadd (double_of_float min_)
         (dmul (dmul (double_of_int (1 - c)) PI) (double_of_int 2))) in
  let c := int_of_double (ddiv (dadd (double_of_float max_) two_PI) two_PI) in
  let max :=
    float_of_double
      (dadd (double_of_float max_)
         (dmul (dmul (double_of_int (1 - c)) PI) (double_of_int 2))) in
  if lt (float_of_int 0) (fmul min_ max_) then
    if lt min target && lt target max then true else false
  else
    let max := float_of_double (dadd (double_of_float max) two_PI) in
    if lt min target && lt target max then true
    else
      let target := float_of_double (dadd (double_of_float target) two_PI) in
      if lt min target && lt target max then true else false.

(** The reduction of lines 36-41 on its own. *)
Definition normalize (a : float) : float :=
  let two_PI := dmul (double_of_int 2) PI in
  let c := int_of_double (ddiv (dadd (double_of_float a) two_PI) two_PI) in
  float_of_double
    (dadd (double_of_float a)
       (dmul (dmul (double_of_int (1 - c)) PI) (double_of_int 2))).

End IEEE.

(** ** Facts about the numeric primitives *)

Lemma Rgtb_true (x y : R) : x > y -> (x >? y) = true.
Proof. intros H. unfold Rgtb. destruct (Rgt_dec x y); [reflexivity | contradiction]. Qed.

Lemma Rgtb_false (x y : R) : x <= y -> (x >? y) = false.
Proof. intros H. unfold Rgtb. destruct (Rgt_dec x y); [lra | reflexivity]. Qed.

Lemma Rltb_true (x y : R) : x < y -> (x <? y) = true.
Proof. intros H. unfold Rltb. destruct (Rlt_dec x y); [reflexivity | contradiction]. Qed.

Lemma Rltb_false (x y : R) : y <= x -> (x <? y) = false.
Proof. intros H. unfold Rltb. destruct (Rlt_dec x y); [lra | reflexivity]. Qed.





(** On a non-negative value truncation is the integer part. *)
Lemma trunc_nonneg (x : R) (k : Z) :
  IZR k <= x < IZR k + 1 -> (0 <= k)%Z -> trunc x = k.
Proof.
  intros [Hlo Hhi] Hk.
  assert (H0 : 0 <= x) by (apply IZR_le in Hk; lra).
  unfold trunc. destruct (Rle_dec 0 x) as [_ | Hn]; [| contradiction].
  symmetry. apply Int_part_spec. lra.
Qed.

(** Every value strictly between -1 and 1 truncates to 0. *)
Lemma trunc_small (x : R) : -1 < x < 1 -> trunc x = 0%Z.
Proof.
  intros [Hlo Hhi]. unfold trunc.
  destruct (Rle_dec 0 x) as [Hp | Hn].
  - symmetry. apply Int_part_spec. simpl. lra.
  - replace (Int_part (- x)) with 0%Z; [reflexivity |].
    apply Int_part_spec. simpl. lra.
Qed.


(** Two decimals of π, from the series of 2 atan(1/3) + atan(1/7). *)
Lemma PI_bounds : 3.14 < PI < 3.15.
Proof.
  pose proof (PI_2_3_7_ineq 1) as H. fold PI in H.
  unfold sum_f_R0, tg_alt, PI_2_3_7_tg, Ratan_seq in H.
  simpl in H. lra.
Qed.

(** ** The reduction step *)

Lemma two_PI_pos : 0 < 2 * PI.
Proof. pose proof PI_bounds. lra. Qed.

(** Dividing by a full turn and multiplying back. *)
Lemma turns_mult (a : R) : a = a / (2 * PI) * (2 * PI).
Proof. pose proof two_PI_pos. field. lra. Qed.

Lemma turns_bounds (a lo hi : R) :
  lo * (2 * PI) <= a < hi * (2 * PI) -> lo <= a / (2 * PI) < hi.
Proof.
  intros [Hlo Hhi]. pose proof two_PI_pos as Hp.
  pose proof (turns_mult a) as Ha.
  set (q := a / (2 * PI)) in *. clearbody q.
  split.
  - destruct (Rle_dec lo q) as [H | H]; [assumption | exfalso].
    assert (q * (2 * PI) < lo * (2 * PI)) by (apply Rmult_lt_compat_r; lra). lra.
  - destruct (Rlt_dec q hi) as [H | H]; [assumption | exfalso].
    assert (hi * (2 * PI) <= q * (2 * PI)) by (apply Rmult_le_compat_r; lra). lra.
Qed.

Lemma turns_bounds_open (a lo hi : R) :
  lo * (2 * PI) < a < hi * (2 * PI) -> lo < a / (2 * PI) < hi.
Proof.
  intros [Hlo Hhi]. pose proof two_PI_pos as Hp.
  pose proof (turns_mult a) as Ha.
  set (q := a / (2 * PI)) in *. clearbody q.
  split.
  - destruct (Rlt_dec lo q) as [H | H]; [assumption | exfalso].
    assert (q * (2 * PI) <= lo * (2 * PI)) by (apply Rmult_le_compat_r; lra). lra.
  - destruct (Rlt_dec q hi) as [H | H]; [assumption | exfalso].
    assert (hi * (2 * PI) <= q * (2 * PI)) by (apply Rmult_le_compat_r; lra). lra.
Qed.

(** An angle of the first turn is left as it is. *)
Lemma normalize_fix (a : R) : 0 <= a < 2 * PI -> normalize a = a.
Proof.
  intros Ha. unfold normalize.
  rewrite (trunc_nonneg _ 1); [simpl; lra | | lia].
  apply turns_bounds. lra.
Qed.

(** An angle of the turn before is moved up by one turn; the truncation
    toward zero gives the same for the turn before that. *)
Lemma normalize_shift (a : R) : - (4 * PI) < a < 0 -> normalize a = a + 2 * PI.
Proof.
  intros Ha. unfold normalize.
  rewrite trunc_small; [simpl; lra |].
  apply turns_bounds_open. lra.
Qed.



(** [angCheck] written with the reduction step named. *)
Lemma angCheck_normalize (target_ min_ max_ : R) :
  angCheck target_ min_ max_ =
    if min_ * max_ >? 0 then
      (normalize target_ >? normalize min_) && (normalize target_ <? normalize max_)
    else
      ((normalize target_ >? normalize min_)
         && (normalize target_ <? normalize max_ + 2 * PI))
      || ((normalize target_ + 2 * PI >? normalize min_)
            && (normalize target_ + 2 * PI <? normalize max_ + 2 * PI)).
Proof.
  unfold angCheck. fold (normalize target_) (normalize min_) (normalize max_).
  destruct (min_ * max_ >? 0);
    repeat match goal with |- context [if ?b then _ else _] => destruct b end;
    reflexivity.
Qed.


(** ** The angular interval test *)

(** Settles every comparison of the goal that linear arithmetic, with the
    bounds of π, can settle. *)
Ltac settle_cmp :=
  pose proof PI_bounds as [? ?];
  repeat match goal with
  | |- context [?a >? ?b] =>
      first [ rewrite (Rgtb_true a b) by lra | rewrite (Rgtb_false a b) by lra ]
  | |- context [?a <? ?b] =>
      first [ rewrite (Rltb_true a b) by lra | rewrite (Rltb_false a b) by lra ]
  end.

(** Reduces the three angles of a call whose arguments lie between
    [-4π] and [2π]. *)
Ltac reduce_angles :=
  pose proof PI_bounds as [? ?];
  rewrite angCheck_normalize;
  repeat match goal with
  | |- context [normalize ?a] =>
      first [ rewrite (normalize_fix a) by lra
            | rewrite (normalize_shift a) by lra ]
  end.

Lemma angCheck_314_3_m3 : angCheck 3.14 3 (-3) = true.
Proof. reduce_angles. settle_cmp. reflexivity. Qed.

Lemma angCheck_0_3_m3 : angCheck 0 3 (-3) = true.
Proof. reduce_angles. settle_cmp. reflexivity. Qed.


(** With a lower bound that is exactly zero the product of the bounds is
    not positive, the second branch is taken, and the whole first turn
    above zero is accepted, the two bounds included. *)
Lemma angCheck_zero_min :
  angCheck 0 0 1 = true /\ angCheck 1 0 1 = true /\ angCheck 3 0 1 = true.
Proof. repeat split; reduce_angles; settle_cmp; reflexivity. Qed.




(** C1, as stated, fails: for the bounds min = 3.0 and max = -3.0 the
    test accepts the target 0.0 as well. *)
Lemma C1_straddling_counterexample :
  ~ (angCheck 3.14 3 (-3) = true /\ angCheck 0 3 (-3) = false).
Proof. intros [_ H]. rewrite angCheck_0_3_m3 in H. discriminate. Qed.

(** C1, amended: for min = 3.0 and max = -3.0 the test returns true for the
    target 3.14 and true for the target 0.0; for the same cone with its
    bounds in increasing order, min = 3.0 and max = -3.0 + 2π, it returns
    true for 3.14 and false for 0.0. *)
Theorem C1_straddling_cone :
  angCheck 3.14 3 (-3) = true /\ angCheck 0 3 (-3) = true /\
  angCheck 3.14 3 (-3 + 2 * PI) = true /\ angCheck 0 3 (-3 + 2 * PI) = false.
Proof.
  split; [exact angCheck_314_3_m3 |].
  split; [exact angCheck_0_3_m3 |].
  split; reduce_angles; settle_cmp; reflexivity.
Qed.







(** ** The same angles, bit by bit

    The verdicts of this part, recomputed with the rounding of binary32
    and binary64. *)

Lemma IEEE_straddling_cone :
  IEEE.angCheck (IEEE.literal 314 2) (IEEE.literal 3 0) (IEEE.literal (-3) 0)
  = true /\
  IEEE.angCheck (IEEE.literal 0 0) (IEEE.literal 3 0) (IEEE.literal (-3) 0)
  = true /\
  IEEE.angCheck (IEEE.literal 3 0) (IEEE.literal 3 0) (IEEE.literal (-3) 0)
  = true.
Proof. repeat split; vm_compute; reflexivity. Qed.

Lemma IEEE_zero_min :
  IEEE.angCheck (IEEE.literal 0 0) (IEEE.literal 0 0) (IEEE.literal 1 0)
  = true /\
  IEEE.angCheck (IEEE.literal 1 0) (IEEE.literal 0 0) (IEEE.literal 1 0)
  = true /\
  IEEE.angCheck (IEEE.literal 3 0) (IEEE.literal 0 0) (IEEE.literal 1 0)
  = true.
Proof. repeat split; vm_compute; reflexivity. Qed.

Lemma IEEE_half_radian_cone :
  IEEE.angCheck (IEEE.literal 0 0) (IEEE.literal (-5) 1) (IEEE.literal 5 1)
  = true /\
  IEEE.angCheck (IEEE.literal (-5) 1) (IEEE.literal (-5) 1) (IEEE.literal 5 1)
  = false /\
  IEEE.angCheck (IEEE.literal 5 1) (IEEE.literal (-5) 1) (IEEE.literal 5 1)
  = false.
Proof. repeat split; vm_compute; reflexivity. Qed.

(** The bearing of a tag on the diagonal: π/4, rounded to a [float]. *)
Lemma IEEE_diagonal_bearing :
  IEEE.angCheck
    (IEEE.float_of_double (IEEE.ddiv IEEE.PI (IEEE.double_of_int 4)))
    (IEEE.literal (-5) 1) (IEEE.literal 5 1)
  = false.
Proof. vm_compute. reflexivity. Qed.

Lemma IEEE_normalize_4 : IEEE.normalize (IEEE.literal 4 0) = IEEE.literal 4 0.
Proof. vm_compute. reflexivity. Qed.

Lemma IEEE_normalize_m7 :
  IEEE.normalize (IEEE.normalize (IEEE.literal (-7) 0))
  <> IEEE.normalize (IEEE.literal (-7) 0).
Proof. vm_compute. discriminate. Qed.

(** ** libm on the values of the scenario *)

(** Comparing a square root with a non-negative bound. *)
Lemma sqrt_gtb (v m : R) : 0 <= m -> (sqrt v >? m) = (v >? m * m).
Proof.
  intros Hm. destruct (Rlt_dec (m * m) v) as [Hv | Hv].
  - rewrite (Rgtb_true v) by lra. apply Rgtb_true.
    rewrite <- (sqrt_square m Hm) at 1.
    apply sqrt_lt_1_alt. split; [nra | assumption].
  - rewrite (Rgtb_false v) by lra. apply Rgtb_false.
    rewrite <- (sqrt_square m Hm) at 1.
    apply sqrt_le_1_alt. lra.
Qed.

Lemma atan2_right (b : R) : 0 < b -> atan2 0 b = 0.
Proof.
  intros Hb. unfold atan2. rewrite Rltb_true by assumption.
  replace (0 / b) with 0 by (field; lra). exact atan_0.
Qed.

Lemma atan2_diagonal (b : R) : 0 < b -> atan2 b b = PI / 4.
Proof.
  intros Hb. unfold atan2. rewrite Rltb_true by assumption.
  replace (b / b) with 1 by (field; lra). exact atan_1.
Qed.

(** ** The loop of the detection cycle *)

Lemma loopBody_detected (r : RfidReader) (m : RfidSensorMeasurementMsg)
    (tag : RfidTag) :
  loopBody r (maxRange (_description r))
    (yaw (_sensorTransform r) - angleSpan (_description r) / 2)
    (yaw (_sensorTransform r) + angleSpan (_description r) / 2) m tag
  = if detected r tag then push_back m tag else m.
Proof.
  unfold loopBody, detected.
  destruct (sqrt _ >? _); simpl; [reflexivity |].
  destruct (angCheck _ _ _); reflexivity.
Qed.

(** The loop appends, in their order, the tags that pass the two gates. *)
Lemma loop_filter (r : RfidReader) (tags : list RfidTag) :
  forall m : RfidSensorMeasurementMsg,
    fold_left
      (loopBody r (maxRange (_description r))
         (yaw (_sensorTransform r) - angleSpan (_description r) / 2)
         (yaw (_sensorTransform r) + angleSpan (_description r) / 2))
      tags m
    = {| header := header m;
         msg_frame_id := msg_frame_id m;
         measured_tags := measured_tags m ++ filter (detected r) tags |}.
Proof.
  induction tags as [| tag tags IH]; intros m; simpl.
  - rewrite app_nil_r. destruct m; reflexivity.
  - rewrite IH, loopBody_detected.
    destruct (detected r tag); simpl; [| reflexivity].
    rewrite <- app_assoc. reflexivity.
Qed.

Lemma updateSensorCallback_publishes (now : Time) (r : RfidReader) :
  _gotTransform r = true ->
  width (info (_map r)) <> 0%N ->
  height (info (_map r)) <> 0%N ->
  updateSensorCallback now r = (r, [Publish (report now r)]).
Proof.
  intros Hg Hw Hh. unfold updateSensorCallback. rewrite Hg. simpl negb. cbv iota.
  apply N.eqb_neq in Hw, Hh. rewrite Hw, Hh. simpl orb. cbv iota.
  cbv zeta. rewrite loop_filter. reflexivity.
Qed.

Lemma updateSensorCallback_not_ready (now : Time) (r : RfidReader) :
  _gotTransform r = false -> updateSensorCallback now r = (r, []).
Proof. intros Hg. unfold updateSensorCallback. rewrite Hg. reflexivity. Qed.

(** A cycle never changes the reader and publishes at most its report. *)
Lemma updateSensorCallback_cases (now : Time) (r : RfidReader) :
  updateSensorCallback now r = (r, []) \/
  (exists s, updateSensorCallback now r = (r, [RosDebug s])) \/
  (_gotTransform r = true /\
   updateSensorCallback now r = (r, [Publish (report now r)])).
Proof.
  destruct (_gotTransform r) eqn:Hg.
  - destruct (N.eq_dec (height (info (_map r))) 0) as [Hh | Hh].
    + right; left. unfold updateSensorCallback. rewrite Hg, Hh. simpl. eauto.
    + destruct (N.eq_dec (width (info (_map r))) 0) as [Hw | Hw].
      * right; left. unfold updateSensorCallback. rewrite Hg, Hw.
        rewrite orb_true_r. simpl. eauto.
      * right; right. split; [reflexivity |].
        apply updateSensorCallback_publishes; assumption.
  - left. apply updateSensorCallback_not_ready. assumption.
Qed.

(** ** The end-to-end scenario *)

Section Scenario.

Variable r : RfidReader.
Hypothesis at_origin :
  _sensorTransform r = {| origin_x := 0; origin_y := 0; yaw := 0 |}.
Hypothesis span_1 : angleSpan (_description r) = 1.
Hypothesis range_10 : maxRange (_description r) = 10.

(** The two gates for a sensor at the origin that looks along the x axis
    with a span of 1 rad and a range of 10. *)
Lemma detected_scenario (tag : RfidTag) :
  detected r tag =
    negb (sqrt ((0 - x (pose tag)) ^ 2 + (0 - y (pose tag)) ^ 2) >? 10)
    && angCheck (atan2 (y (pose tag) - 0) (x (pose tag) - 0))
         (0 - 1 / 2) (0 + 1 / 2).
Proof.
  unfold detected. rewrite at_origin, span_1, range_10. reflexivity.
Qed.

Lemma detected_5_0 (tag : RfidTag) :
  x (pose tag) = 5 -> y (pose tag) = 0 -> detected r tag = true.
Proof.
  intros Hx Hy. rewrite detected_scenario, Hx, Hy.
  rewrite sqrt_gtb by lra. rewrite Rgtb_false by (simpl; lra).
  replace (0 - 0) with 0 by lra. replace (5 - 0) with 5 by lra.
  rewrite atan2_right by lra.
  reduce_angles. settle_cmp. reflexivity.
Qed.

Lemma detected_5_5 (tag : RfidTag) :
  x (pose tag) = 5 -> y (pose tag) = 5 -> detected r tag = false.
Proof.
  intros Hx Hy. rewrite detected_scenario, Hx, Hy.
  rewrite sqrt_gtb by lra. rewrite Rgtb_false by (simpl; lra).
  replace (5 - 0) with 5 by lra.
  rewrite atan2_diagonal by lra.
  reduce_angles. settle_cmp. reflexivity.
Qed.

Lemma detected_20_0 (tag : RfidTag) :
  x (pose tag) = 20 -> y (pose tag) = 0 -> detected r tag = false.
Proof.
  intros Hx Hy. rewrite detected_scenario, Hx, Hy.
  rewrite sqrt_gtb by lra. rewrite Rgtb_true by (simpl; lra).
  reflexivity.
Qed.

End Scenario.

(** C4: with the sensor at the origin, heading 0, a span of 1.0 rad and a
    range of 10, a cycle over the tags A at (5,0), B at (5,5) and C at
    (20,0) publishes one report, and its list of tags is exactly A. *)
Theorem C4_end_to_end (now : Time) (r : RfidReader) (A B C : RfidTag) :
  _gotTransform r = true ->
  width (info (_map r)) <> 0%N ->
  height (info (_map r)) <> 0%N ->
  _sensorTransform r = {| origin_x := 0; origin_y := 0; yaw := 0 |} ->
  angleSpan (_description r) = 1 ->
  maxRange (_description r) = 10 ->
  x (pose A) = 5 -> y (pose A) = 0 ->
  x (pose B) = 5 -> y (pose B) = 5 ->
  x (pose C) = 20 -> y (pose C) = 0 ->
  rfid_tags (rfid_tags_ r) = [A; B; C] ->
  exists m : RfidSensorMeasurementMsg,
    updateSensorCallback now r = (r, [Publish m]) /\ measured_tags m = [A].
Proof.
  intros Hg Hw Hh Ho Hs Hr HAx HAy HBx HBy HCx HCy Htags.
  exists (report now r). split.
  - apply updateSensorCallback_publishes; assumption.
  - unfold report. simpl. rewrite Htags. simpl.
    rewrite (detected_5_0 r Ho Hs Hr A HAx HAy).
    rewrite (detected_5_5 r Ho Hs Hr B HBx HBy).
    rewrite (detected_20_0 r Ho Hs Hr C HCx HCy).
    reflexivity.
Qed.

Lemma C4_end_to_end_witness :
  exists m : RfidSensorMeasurementMsg,
    updateSensorCallback 0%Z scenario_reader = (scenario_reader, [Publish m])
    /\ measured_tags m = [tagA].
Proof.
  apply (C4_end_to_end 0%Z scenario_reader tagA tagB tagC);
    try reflexivity; simpl; lia.
Defined.

(** ** The range gate *)

(** In the loop: beyond the range the tag is skipped whatever its bearing;
    within the range, the bound included, the bearing alone decides. *)
Lemma loopBody_range_gate (r : RfidReader) (max_range min_angle max_angle : R)
    (m : RfidSensorMeasurementMsg) (tag : RfidTag) :
  let sensor_x := origin_x (_sensorTransform r) in
  let sensor_y := origin_y (_sensorTransform r) in
  let dist := sqrt ((sensor_x - x (pose tag)) ^ 2 + (sensor_y - y (pose tag)) ^ 2) in
  (dist > max_range -> loopBody r max_range min_angle max_angle m tag = m) /\
  (dist <= max_range ->
   loopBody r max_range min_angle max_angle m tag =
     if angCheck (atan2 (y (pose tag) - sensor_y) (x (pose tag) - sensor_x))
          min_angle max_angle
     then push_back m tag else m).
Proof.
  intros sensor_x sensor_y dist. unfold loopBody.
  fold sensor_x sensor_y. fold dist. split; intros Hd.
  - rewrite Rgtb_true by assumption. reflexivity.
  - rewrite Rgtb_false by assumption.
    destruct (angCheck _ _ _); reflexivity.
Qed.



(** ** Readiness *)

Lemma run_cons (e : Event) (es : list Event) (r : RfidReader) :
  run (e :: es) r =
    (fst (run es (fst (dispatch e r))),
     snd (dispatch e r) ++ snd (run es (fst (dispatch e r)))).
Proof.
  simpl. destruct (dispatch e r) as [r1 out1]. simpl.
  destruct (run es r1) as [r2 out2]. reflexivity.
Qed.

Lemma reports_app (o1 o2 : list Effect) :
  reports (o1 ++ o2) = reports o1 ++ reports o2.
Proof.
  induction o1 as [| [m | s] o1 IH]; simpl; [reflexivity | |];
    rewrite IH; reflexivity.
Qed.

(** No callback touches the map, the name or the description. *)
Lemma dispatch_config (e : Event) (r : RfidReader) :
  _map (fst (dispatch e r)) = _map r /\
  _namespace (fst (dispatch e r)) = _namespace r /\
  _description (fst (dispatch e r)) = _description r.
Proof.
  destruct e as [now | [ex | t] | msg]; simpl; auto.
  destruct (updateSensorCallback_cases now r) as [H | [[s H] | [_ H]]];
    rewrite H; auto.
Qed.

(** No callback clears the flag. *)
Lemma dispatch_ready (e : Event) (r : RfidReader) :
  _gotTransform r = true -> _gotTransform (fst (dispatch e r)) = true.
Proof.
  intros Hg. destruct e as [now | [ex | t] | msg]; simpl; auto.
  destruct (updateSensorCallback_cases now r) as [H | [[s H] | [_ H]]];
    rewrite H; auto.
Qed.

(** Without a successful lookup the pose and the flag stay. *)
Lemma dispatch_stale (e : Event) (r : RfidReader) :
  lookup_succeeds e = false ->
  _sensorTransform (fst (dispatch e r)) = _sensorTransform r /\
  _gotTransform (fst (dispatch e r)) = _gotTransform r.
Proof.
  intros He. destruct e as [now | [ex | t] | msg]; simpl in *; auto;
    try discriminate.
  destruct (updateSensorCallback_cases now r) as [H | [[s H] | [_ H]]];
    rewrite H; auto.
Qed.

(** Only a cycle of a ready reader publishes. *)
Lemma dispatch_reports_not_ready (e : Event) (r : RfidReader) :
  _gotTransform r = false -> reports (snd (dispatch e r)) = [].
Proof.
  intros Hg. destruct e as [now | [ex | t] | msg]; simpl; auto.
  rewrite updateSensorCallback_not_ready by assumption. reflexivity.
Qed.

Lemma run_ready (es : list Event) :
  forall r : RfidReader,
    _gotTransform r = true -> _gotTransform (fst (run es r)) = true.
Proof.
  induction es as [| e es IH]; intros r Hg; [assumption |].
  rewrite run_cons. simpl. apply IH, dispatch_ready, Hg.
Qed.

Lemma run_config (es : list Event) :
  forall r : RfidReader,
    _map (fst (run es r)) = _map r /\
    _namespace (fst (run es r)) = _namespace r /\
    _description (fst (run es r)) = _description r.
Proof.
  induction es as [| e es IH]; intros r; [simpl; auto |].
  rewrite run_cons. simpl.
  destruct (IH (fst (dispatch e r))) as (H1 & H2 & H3).
  destruct (dispatch_config e r) as (K1 & K2 & K3).
  rewrite H1, H2, H3. auto.
Qed.

Lemma run_stale (es : list Event) :
  forall r : RfidReader,
    forallb (fun e => negb (lookup_succeeds e)) es = true ->
    _sensorTransform (fst (run es r)) = _sensorTransform r /\
    _gotTransform (fst (run es r)) = _gotTransform r.
Proof.
  induction es as [| e es IH]; intros r Hes; [simpl; auto |].
  simpl in Hes. apply andb_prop in Hes. destruct Hes as [He Hes].
  apply negb_true_iff in He.
  rewrite run_cons. simpl.
  destruct (IH (fst (dispatch e r)) Hes) as [H1 H2].
  destruct (dispatch_stale e r He) as [K1 K2].
  rewrite H1, H2. auto.
Qed.

Lemma run_reports_not_ready (es : list Event) :
  forall r : RfidReader,
    _gotTransform r = false ->
    forallb (fun e => negb (lookup_succeeds e)) es = true ->
    reports (snd (run es r)) = [].
Proof.
  induction es as [| e es IH]; intros r Hg Hes; [reflexivity |].
  simpl in Hes. apply andb_prop in Hes. destruct Hes as [He Hes].
  apply negb_true_iff in He.
  rewrite run_cons. simpl. rewrite reports_app.
  rewrite dispatch_reports_not_ready by assumption.
  apply IH; [| assumption].
  destruct (dispatch_stale e r He) as [_ K]. rewrite K. assumption.
Qed.

Lemma run_cycles_not_ready (nows : list Time) (r : RfidReader) :
  _gotTransform r = false -> run (map SensorTimer nows) r = (r, []).
Proof.
  intros Hg. induction nows as [| now nows IH]; [reflexivity |].
  simpl map. rewrite run_cons. simpl dispatch.
  rewrite updateSensorCallback_not_ready by assumption. simpl fst. simpl snd.
  rewrite IH. reflexivity.
Qed.

(** C6: while the flag is false, any number of invocations of the cycle
    leaves the reader as it was and has no effect at all; and whatever
    else happens in between, short of a successful lookup, no report is
    published. *)
Theorem C6_readiness_gate (r : RfidReader) :
  _gotTransform r = false ->
  (forall nows : list Time, run (map SensorTimer nows) r = (r, [])) /\
  (forall es : list Event,
     forallb (fun e => negb (lookup_succeeds e)) es = true ->
     reports (snd (run es r)) = []).
Proof.
  intros Hg. split.
  - intros nows. apply run_cycles_not_ready. assumption.
  - intros es Hes. apply run_reports_not_ready; assumption.
Qed.

Lemma C6_readiness_gate_witness :
  (forall nows : list Time,
     run (map SensorTimer nows) fresh_reader = (fresh_reader, [])) /\
  (forall es : list Event,
     forallb (fun e => negb (lookup_succeeds e)) es = true ->
     reports (snd (run es fresh_reader)) = []).
Proof.
  apply (C6_readiness_gate fresh_reader). reflexivity.
Defined.

(** ** The tag registry *)



(** ** The pose refresh *)

(** C8: a lookup that fails leaves the reader, its pose and its flag
    included, exactly as it was, and its only effect is the debug line with
    the text of the exception; a lookup that succeeds stores the new pose,
    sets the flag, touches nothing else and has no effect outside. *)
Theorem C8_pose_refresh (r : RfidReader) (ex : TransformException)
    (t : Transform) :
  updateTransform (inl ex) r = (r, [RosDebug (what ex)]) /\
  _sensorTransform (fst (updateTransform (inr t) r)) = t /\
  _gotTransform (fst (updateTransform (inr t) r)) = true /\
  _map (fst (updateTransform (inr t) r)) = _map r /\
  _namespace (fst (updateTransform (inr t) r)) = _namespace r /\
  _description (fst (updateTransform (inr t) r)) = _description r /\
  rfid_tags_ (fst (updateTransform (inr t) r)) = rfid_tags_ r /\
  snd (updateTransform (inr t) r) = [].
Proof. repeat split. Qed.

(** C9: once the flag is true every sequence of callbacks leaves it true;
    if all the lookups of the sequence fail, the pose is still the cached
    one, and a cycle that follows on a map of nonzero size is not skipped:
    it publishes the report computed from that pose. *)
Theorem C9_readiness_monotone (r : RfidReader) (es : list Event) :
  _gotTransform r = true ->
  _gotTransform (fst (run es r)) = true /\
  (forallb (fun e => negb (lookup_succeeds e)) es = true ->
   _sensorTransform (fst (run es r)) = _sensorTransform r /\
   forall now : Time,
     width (info (_map r)) <> 0%N ->
     height (info (_map r)) <> 0%N ->
     exists m : RfidSensorMeasurementMsg,
       updateSensorCallback now (fst (run es r)) = (fst (run es r), [Publish m])
       /\ measured_tags m =
            filter (detected r) (rfid_tags (rfid_tags_ (fst (run es r))))).
Proof.
  intros Hg. pose proof (run_ready es r Hg) as Hg'.
  split; [assumption |]. intros Hes.
  destruct (run_stale es r Hes) as [Hpose _].
  destruct (run_config es r) as (Hmap & _ & Hdesc).
  split; [assumption |]. intros now Hw Hh.
  exists (report now (fst (run es r))). split.
  - apply updateSensorCallback_publishes; [assumption | |]; rewrite Hmap; assumption.
  - unfold report. simpl. apply filter_ext. intros tag.
    unfold detected. rewrite Hpose, Hdesc. reflexivity.
Qed.

Lemma C9_readiness_monotone_witness :
  _gotTransform
    (fst (run [TfTimer (inl {| what := "timeout"%string |}); SensorTimer 1%Z]
            scenario_reader)) = true /\
  _sensorTransform
    (fst (run [TfTimer (inl {| what := "timeout"%string |}); SensorTimer 1%Z]
            scenario_reader)) = origin_pose /\
  exists m : RfidSensorMeasurementMsg,
    updateSensorCallback 2%Z
      (fst (run [TfTimer (inl {| what := "timeout"%string |}); SensorTimer 1%Z]
              scenario_reader))
    = (fst (run [TfTimer (inl {| what := "timeout"%string |}); SensorTimer 1%Z]
              scenario_reader), [Publish m]).
Proof.
  destruct (C9_readiness_monotone scenario_reader
              [TfTimer (inl {| what := "timeout"%string |}); SensorTimer 1%Z]
              eq_refl) as [Hflag Hrest].
  destruct (Hrest eq_refl) as [Hpose Hcycle].
  destruct (Hcycle 2%Z) as (m & Hm & _); [simpl; lia | simpl; lia |].
  split; [exact Hflag |]. split; [exact Hpose |].
  exists m. exact Hm.
Defined.

(** ** One report per cycle *)

(** C10: when the flag is true and the map has nonzero width and height,
    the cycle leaves the reader as it is and publishes exactly one report,
    which lists the tags that pass the two gates; with an empty registry,
    or when no tag passes, that report is published with an empty list. *)
Theorem C10_one_report (now : Time) (r : RfidReader) :
  _gotTransform r = true ->
  width (info (_map r)) <> 0%N ->
  height (info (_map r)) <> 0%N ->
  exists m : RfidSensorMeasurementMsg,
    updateSensorCallback now r = (r, [Publish m]) /\
    measured_tags m = filter (detected r) (rfid_tags (rfid_tags_ r)) /\
    (rfid_tags (rfid_tags_ r) = [] -> measured_tags m = []) /\
    ((forall tag, In tag (rfid_tags (rfid_tags_ r)) -> detected r tag = false) ->
     measured_tags m = []).
Proof.
  intros Hg Hw Hh. exists (report now r).
  split; [apply updateSensorCallback_publishes; assumption |].
  split; [reflexivity |]. unfold report; simpl. split.
  - intros ->. reflexivity.
  - intros Hnone. induction (rfid_tags (rfid_tags_ r)) as [| tag tags IH];
      [reflexivity |].
    simpl. rewrite (Hnone tag) by (left; reflexivity).
    apply IH. intros tag' Hin. apply Hnone. right. assumption.
Qed.

Lemma C10_one_report_witness :
  exists m : RfidSensorMeasurementMsg,
    updateSensorCallback 0%Z
      (fst (receiveRfids {| rfid_tags := [] |} scenario_reader))
    = (fst (receiveRfids {| rfid_tags := [] |} scenario_reader), [Publish m])
    /\ measured_tags m = [].
Proof.
  destruct (C10_one_report 0%Z
              (fst (receiveRfids {| rfid_tags := [] |} scenario_reader)))
    as (m & Hrun & _ & Hempty & _).
  - reflexivity.
  - simpl. lia.
  - simpl. lia.
  - exists m. split; [exact Hrun | apply Hempty; reflexivity].
Defined.

(** * Further properties *)

(** ** The reduction step on every angle *)








(** ** The angular interval test on every target *)









(** ** The test as membership in the cone *)







(** ** The detection cycle as a geometric test *)






(** ** Runs of callbacks *)

(** What a cycle publishes, and that it hands the reader back. *)
Lemma updateSensorCallback_reports (now : Time) (r : RfidReader) :
  fst (updateSensorCallback now r) = r /\
  reports (snd (updateSensorCallback now r)) =
    if _gotTransform r && map_ok r then [report now r] else [].
Proof.
  unfold map_ok.
  destruct (_gotTransform r) eqn:Hg.
  - destruct ((height (info (_map r)) =? 0)%N || (width (info (_map r)) =? 0)%N)
      eqn:Hm.
    + unfold updateSensorCallback. rewrite Hg, Hm. simpl. auto.
    + apply orb_false_elim in Hm. destruct Hm as [Hh Hw].
      apply N.eqb_neq in Hh, Hw.
      rewrite updateSensorCallback_publishes by assumption. simpl. auto.
  - rewrite updateSensorCallback_not_ready by assumption. simpl. auto.
Qed.

Lemma dispatch_map_ok (e : Event) (r : RfidReader) :
  map_ok (fst (dispatch e r)) = map_ok r.
Proof.
  unfold map_ok. destruct (dispatch_config e r) as (H & _ & _).
  rewrite H. reflexivity.
Qed.

Lemma dispatch_reports (e : Event) (r : RfidReader) :
  reports (snd (dispatch e r)) =
    match e with
    | SensorTimer now =>
        if _gotTransform r && map_ok r then [report now r] else []
    | _ => []
    end.
Proof.
  destruct e as [now | [ex | t] | msg]; simpl; try reflexivity.
  apply updateSensorCallback_reports.
Qed.

(** The flag after one callback. *)
Lemma dispatch_flag (e : Event) (r : RfidReader) :
  _gotTransform (fst (dispatch e r)) = _gotTransform r || lookup_succeeds e.
Proof.
  destruct e as [now | [ex | t] | msg]; simpl;
    rewrite ?orb_false_r, ?orb_true_r; try reflexivity.
  destruct (updateSensorCallback_reports now r) as [H _]. rewrite H.
  reflexivity.
Qed.

Lemma run_reports_degenerate (es : list Event) :
  forall r : RfidReader, map_ok r = false -> reports (snd (run es r)) = [].
Proof.
  induction es as [| e es IH]; intros r Hok; [reflexivity |].
  rewrite run_cons. simpl. rewrite reports_app, dispatch_reports.
  rewrite Hok, andb_false_r.
  replace (match e with SensorTimer _ => [] | _ => [] end)
    with (@nil RfidSensorMeasurementMsg) by (destruct e; reflexivity).
  simpl. apply IH. rewrite dispatch_map_ok. assumption.
Qed.

(** X7: on a map of zero width or zero height no sequence of callbacks
    ever publishes a report; a cycle of a ready reader then leaves the
    reader as it is and only writes its debug line. *)
Theorem X7_degenerate_map (r : RfidReader) :
  width (info (_map r)) = 0%N \/ height (info (_map r)) = 0%N ->
  (forall es : list Event, reports (snd (run es r)) = []) /\
  (forall now : Time,
     _gotTransform r = true ->
     updateSensorCallback now r =
       (r, [RosDebug ("In rfid reader : Outside limits" ++ newline)%string])).
Proof.
  intros Hmap.
  assert (Hok : map_ok r = false).
  { unfold map_ok. destruct Hmap as [-> | ->]; simpl;
      rewrite ?orb_true_r; reflexivity. }
  split.
  - intros es. apply run_reports_degenerate. assumption.
  - intros now Hg. unfold updateSensorCallback. rewrite Hg.
    unfold map_ok in Hok. apply negb_false_iff in Hok. rewrite Hok.
    reflexivity.
Qed.

Lemma X7_degenerate_map_witness :
  reports
    (snd (run [TfTimer (inr origin_pose); SensorTimer 1%Z]
            (RfidReader_new {| info := {| width := 0; height := 100 |} |}
               scenario_sensor "robot0"%string))) = [].
Proof.
  apply (X7_degenerate_map
           (RfidReader_new {| info := {| width := 0; height := 100 |} |}
              scenario_sensor "robot0"%string)).
  left. reflexivity.
Defined.

(** X8: whatever callbacks run, [getFrameId] and [getSensorPose] keep
    answering what they answered before, and every report published
    carries the answer of [getFrameId] as the frame of its header and the
    frame of the description as its own. *)
Theorem X8_frame_ids (es : list Event) (r : RfidReader) :
  getFrameId (fst (run es r)) = getFrameId r /\
  getSensorPose (fst (run es r)) = getSensorPose r /\
  Forall
    (fun m => header_frame_id (header m) = getFrameId r /\
              msg_frame_id m = frame_id (_description r))
    (reports (snd (run es r))).
Proof.
  destruct (run_config es r) as (_ & Hn & Hd).
  unfold getFrameId, getSensorPose. rewrite Hn, Hd.
  split; [reflexivity |]. split; [reflexivity |].
  clear Hn Hd. revert r. induction es as [| e es IH]; intros r;
    [constructor |].
  rewrite run_cons. simpl. rewrite reports_app. apply Forall_app. split.
  - rewrite dispatch_reports. destruct e as [now | lookup | msg];
      try constructor.
    destruct (_gotTransform r && map_ok r); constructor;
      [split; reflexivity | constructor].
  - destruct (dispatch_config e r) as (_ & Hn & Hd).
    specialize (IH (fst (dispatch e r))). rewrite Hn, Hd in IH. exact IH.
Qed.

(** X9: the last update wins.  After any sequence of callbacks the reader
    holds the pose of the last lookup that succeeded and the registry of
    the last message received (its own if there was none); the flag is set
    exactly if it was set before or a lookup succeeded; map, name and
    description are those it started with. *)
Theorem X9_last_update_wins (es : list Event) (r : RfidReader) :
  fst (run es r) =
    {| _map := _map r;
       _namespace := _namespace r;
       _description := _description r;
       _gotTransform := _gotTransform r || existsb lookup_succeeds es;
       _sensorTransform := last_pose es (_sensorTransform r);
       rfid_tags_ := last_tags es (rfid_tags_ r) |}.
Proof.
  revert r. induction es as [| e es IH]; intros r.
  - simpl. rewrite orb_false_r. destruct r; reflexivity.
  - rewrite run_cons. simpl fst. rewrite IH.
    destruct e as [now | [ex | t] | msg]; simpl.
    + destruct (updateSensorCallback_reports now r) as [H _]. rewrite H.
      reflexivity.
    + reflexivity.
    + rewrite orb_true_r. reflexivity.
    + reflexivity.
Qed.

(** X10: one report per ready cycle, in order.  On a map of nonzero size
    the time stamps of the reports that a sequence of callbacks publishes
    are the times of its sensor timer events that come when the flag is
    set, in their order: the events before the first lookup that succeeds
    publish nothing, and each of the others publishes once. *)
Theorem X10_report_stamps (es : list Event) (r : RfidReader) :
  width (info (_map r)) <> 0%N ->
  height (info (_map r)) <> 0%N ->
  map (fun m => stamp (header m)) (reports (snd (run es r)))
  = ready_times (_gotTransform r) es.
Proof.
  intros Hw Hh.
  assert (Hok : map_ok r = true).
  { unfold map_ok. apply N.eqb_neq in Hw, Hh. rewrite Hw, Hh. reflexivity. }
  clear Hw Hh. revert r Hok. induction es as [| e es IH]; intros r Hok;
    [reflexivity |].
  rewrite run_cons. simpl snd. rewrite reports_app, map_app.
  rewrite dispatch_reports, IH by (rewrite dispatch_map_ok; assumption).
  rewrite dispatch_flag, Hok, andb_true_r.
  destruct e as [now | [ex | t] | msg]; simpl;
    rewrite ?orb_false_r, ?orb_true_r; try reflexivity.
  destruct (_gotTransform r); reflexivity.
Qed.

Lemma X10_report_stamps_witness :
  map (fun m => stamp (header m))
    (reports
       (snd (run [SensorTimer 1%Z; TfTimer (inr origin_pose); SensorTimer 2%Z;
                  TfTimer (inl {| what := "timeout"%string |});
                  SensorTimer 3%Z] fresh_reader)))
  = [2%Z; 3%Z].
Proof.
  apply (X10_report_stamps
           [SensorTimer 1%Z; TfTimer (inr origin_pose); SensorTimer 2%Z;
            TfTimer (inl {| what := "timeout"%string |}); SensorTimer 3%Z]
           fresh_reader); simpl; lia.
Defined.

(** ** The bit-level test on every float *)

Lemma SFltb_irrefl (f : spec_float) : SFltb f f = false.
Proof.
  unfold SFltb, SFcompare. destruct f as [s | s | | s m e]; try reflexivity.
  - destruct s; reflexivity.
  - rewrite Z.compare_refl, Pos.compare_cont_refl. destruct s; reflexivity.
Qed.

Lemma SFltb_asym (f g : spec_float) : SFltb f g = true -> SFltb g f = false.
Proof.
  unfold SFltb, SFcompare.
  destruct f as [s1 | s1 | | s1 m1 e1], g as [s2 | s2 | | s2 m2 e2];
    try reflexivity; try discriminate;
    try (destruct s1; try reflexivity; discriminate);
    try (destruct s2; try reflexivity; discriminate);
    try (destruct s1, s2; try reflexivity; discriminate).
  assert (Hm : Pos.compare_cont Eq m2 m1 = CompOpp (Pos.compare_cont Eq m1 m2))
    by (rewrite Pos.compare_cont_antisym; reflexivity).
  destruct s1, s2; try reflexivity; try discriminate;
    rewrite (Z.compare_antisym e1 e2), Hm;
    destruct (e1 ?= e2)%Z; simpl; try reflexivity; try discriminate;
    destruct (Pos.compare_cont Eq m1 m2); simpl;
    try reflexivity; discriminate.
Qed.

(** X11: with the rounding of the machine, for all floats min and max
    whose product the code finds positive, a target that is the same float
    as min, or the same float as max, is rejected. *)
Theorem X11_IEEE_bounds_exclusive (min_ max_ : IEEE.float) :
  IEEE.lt (IEEE.float_of_int 0) (IEEE.fmul min_ max_) = true ->
  IEEE.angCheck min_ min_ max_ = false /\ IEEE.angCheck max_ min_ max_ = false.
Proof.
  intros Hs. unfold IEEE.angCheck. cbv zeta. rewrite Hs. unfold IEEE.lt.
  split.
  - rewrite SFltb_irrefl. reflexivity.
  - rewrite SFltb_irrefl, andb_false_r. reflexivity.
Qed.

Lemma X11_IEEE_bounds_exclusive_witness :
  IEEE.angCheck (IEEE.literal 1 0) (IEEE.literal 1 0) (IEEE.literal 2 0)
  = false /\
  IEEE.angCheck (IEEE.literal 2 0) (IEEE.literal 1 0) (IEEE.literal 2 0)
  = false.
Proof.
  apply (X11_IEEE_bounds_exclusive (IEEE.literal 1 0) (IEEE.literal 2 0)).
  vm_compute. reflexivity.
Defined.

(** X12: with the rounding of the machine, for every float a whose square
    the code finds positive and for every float target, the cone of no
    width from a to a is found empty. *)
Theorem X12_IEEE_empty_cone (target_ a : IEEE.float) :
  IEEE.lt (IEEE.float_of_int 0) (IEEE.fmul a a) = true ->
  IEEE.angCheck target_ a a = false.
Proof.
  intros Hs. unfold IEEE.angCheck. cbv zeta. rewrite Hs. unfold IEEE.lt.
  match goal with
  | |- (if SFltb ?u ?v && SFltb ?v ?u then _ else _) = _ =>
      destruct (SFltb u v) eqn:Huv;
        [rewrite (SFltb_asym u v Huv) |]; reflexivity
  end.
Qed.

Lemma X12_IEEE_empty_cone_witness :
  IEEE.angCheck (IEEE.literal 1 0) (IEEE.literal 1 0) (IEEE.literal 1 0)
  = false.
Proof.
  apply (X12_IEEE_empty_cone (IEEE.literal 1 0) (IEEE.literal 1 0)).
  vm_compute. reflexivity.
Defined.

(** ** A cone whose lower edge is zero *)


